(** * Shallow embedding of [src/data/xlsx_to_sql.py]

    The script reads every sheet of an Excel workbook with pandas and
    writes each one to a SQLite table:

<<
    def main():
        excel_path = Path(EXCEL_FILE)
        if not excel_path.is_file():
            raise FileNotFoundError(f"...: {excel_path.resolve()}")
        all_sheets = pd.read_excel(excel_path, sheet_name=None)
        conn = sqlite3.connect(SQLITE_DB)
        try:
            for sheet_name, df in all_sheets.items():
                table_name = str(sheet_name).strip().replace(" ", "_")
                df.to_sql(table_name, conn, if_exists="replace", index=False)
        finally:
            conn.close()
>>

    Data model.
    - A Python [str] (a sheet name, a table name) is its sequence of
      Unicode code points, [list Z].
    - A SQLite database is the map from table names to tables
      ([gmap pystr table]); the database file is [option db]
      ([None]: the file does not exist).
    - A pandas [DataFrame] is its column labels and its rows.
    - The workbook returned by [pd.read_excel(..., sheet_name=None)] is the
      ordered dict [sheet name -> DataFrame], an association list in
      workbook order.
    - The path [EXCEL_FILE] is a regular file with some bytes, a directory,
      or nothing.

    The libraries (pathlib's [resolve], pandas' [read_excel], whether
    [sqlite3.connect] can open [SQLITE_DB], and the database faults met by
    [to_sql]) are the parameters of the section [Converter].  The [print]
    calls of lines 17, 30, 35 and 36 only write to standard output; they
    are taken to succeed and are left out. *)

From Stdlib Require Import String Ascii ZArith.
From stdpp Require Import base gmap strings list fin_maps.

Open Scope string_scope.

(** ** Python's [str.strip()] and [str.replace(" ", "_")] *)

(** A Python [str]: its Unicode code points. *)
Abbreviation pystr := (list Z).

(** [str.isspace] on one code point, the test [str.strip()] uses:
    [\t \n \v \f \r] (9-13), the separators [\x1c]..[\x1f] (28-31), the
    space (32), [\x85] (133), [\xa0] (160), U+1680 (5760),
    U+2000..U+200A (8192-8202), U+2028 (8232), U+2029 (8233),
    U+202F (8239), U+205F (8287) and U+3000 (12288). *)
Definition py_isspace (c : Z) : bool :=
  (((9 <=? c) && (c <=? 13)) || ((28 <=? c) && (c <=? 32)) ||
  (c =? 133) || (c =? 160) || (c =? 5760) ||
  ((8192 <=? c) && (c <=? 8202)) || (c =? 8232) || (c =? 8233) ||
  (c =? 8239) || (c =? 8287) || (c =? 12288))%Z.

Fixpoint drop_space (l : pystr) : pystr :=
  match l with
  | [] => []
  | c :: l' => if py_isspace c then drop_space l' else l
  end.

(** [s.strip()]: drop the leading whitespace, then the trailing one. *)
Definition py_strip (s : pystr) : pystr :=
  rev (drop_space (rev (drop_space s))).

(** One character of [s.replace(" ", "_")]: the space (32) becomes the
    underscore (95). *)
Definition underscore (c : Z) : Z :=
  if (c =? 32)%Z then 95%Z else c.

(** [s.replace(" ", "_")]: a one-character pattern, replaced everywhere. *)
Definition py_replace_space (s : pystr) : pystr := map underscore s.

(** Line 28: [table_name = str(sheet_name).strip().replace(" ", "_")]
    (pandas' sheet names are already [str], so [str] is the identity). *)
Definition table_name (sheet_name : pystr) : pystr :=
  py_replace_space (py_strip sheet_name).

(** ** pandas data frames and SQLite tables *)

Inductive cell :=
| CNull
| CInt (z : Z)
| CBool (b : bool)
| CText (s : string).

Record dataframe := {
  df_columns : list string;
  df_rows : list (list cell)
}.

Record table := {
  tcols : list string;
  trows : list (list cell)
}.

Abbreviation db := (gmap pystr table).

(** The [if_exists] argument of [DataFrame.to_sql]. *)
Inductive if_exists_mode := IfFail | IfReplace | IfAppend.

(** The table [to_sql] builds from a frame: with [index=True] the default
    [RangeIndex] comes first, as a column named ["index"]. *)
Definition frame_to_table (df : dataframe) (index : bool) : table :=
  if index then
    {| tcols := "index" :: df_columns df;
       trows := zip_with (fun i r => CInt (Z.of_nat i) :: r)
                  (seq 0 (length (df_rows df))) (df_rows df) |}
  else {| tcols := df_columns df; trows := df_rows df |}.

Arguments frame_to_table : simpl never.

(** What a failed table write leaves behind under that table's name:
    nothing changed (failure before [DROP TABLE]), the table dropped
    (failure in [CREATE TABLE]), or some table left in place (failure
    during the [INSERT]s). *)
Inductive residue :=
| Untouched
| Dropped
| LeftAs (t : table).

Definition apply_residue (name : pystr) (r : residue) (d : db) : db :=
  match r with
  | Untouched => d
  | Dropped => delete name d
  | LeftAs t => <[name := t]> d
  end.

(** The exceptions [main] lets through.  [ConnectError] is the
    [sqlite3.OperationalError] ("unable to open database file") of
    [sqlite3.connect]. *)
Inductive error :=
| FileNotFoundError (resolved : string)
| ParseError
| ConnectError
| TableExists (name : pystr)
| DatabaseError (name : pystr).

Inductive fs_entry :=
| RegularFile (contents : list Byte.byte)
| Directory
| Missing.

Definition is_file (e : fs_entry) : bool :=
  match e with RegularFile _ => true | _ => false end.

Record state := {
  excel_entry : fs_entry;   (** what the path [EXCEL_FILE] holds *)
  db_file : option db;      (** the file [SQLITE_DB], if it exists *)
  conn_open : bool          (** a connection to [SQLITE_DB] is open *)
}.

Definition EXCEL_FILE : string := "db.xlsx".
Definition SQLITE_DB : string := "data.db".

Abbreviation sheet := (pystr * dataframe)%type.
Abbreviation workbook := (list sheet).

Section Converter.

(** [Path(p).resolve()]: the absolute path of [p]. *)
Variable resolve : string -> string.
(** [pd.read_excel(path, sheet_name=None)] on the file's bytes: the
    ordered dict of all sheets, or [None] when pandas raises (corrupt
    file, unsupported format). *)
Variable read_excel : list Byte.byte -> option workbook.
(** The database fault (if any) that [to_sql] meets when it writes the
    table [t] under the name [name] (invalid name, disk full, locked
    file, ...), and what it leaves under that name. *)
Variable sql_fault : pystr -> table -> option residue.
(** Whether [sqlite3.connect(SQLITE_DB)] raises: [data.db] is a directory,
    or its folder cannot be written, ... *)
Variable connect_fails : bool.

(** [df.to_sql(name, conn, if_exists=..., index=...)] on the database [d]:
    the database afterwards, and the exception raised, if any. *)
Definition to_sql (name : pystr) (d : db) (df : dataframe)
    (if_exists : if_exists_mode) (index : bool) : db * option error :=
  let t := frame_to_table df index in
  match sql_fault name t with
  | Some r => (apply_residue name r d, Some (DatabaseError name))
  | None =>
      match if_exists, d !! name with
      | IfFail, Some _ => (d, Some (TableExists name))
      | IfAppend, Some old =>
          (<[name := {| tcols := tcols old; trows := trows old ++ trows t |}]> d,
           None)
      | _, _ => (<[name := t]> d, None)
      end
  end.

(** Lines 26-33: the [for] loop over [all_sheets.items()]; the first
    exception leaves the loop. *)
Fixpoint write_sheets (sheets : workbook) (d : db) : db * option error :=
  match sheets with
  | [] => (d, None)
  | (sheet_name, df) :: rest =>
      let tn := table_name sheet_name in
      match to_sql tn d df IfReplace false with
      | (d', Some e) => (d', Some e)
      | (d', None) => write_sheets rest d'
      end
  end.

(** [sqlite3.connect(SQLITE_DB)]: raises when [connect_fails]; otherwise
    creates an empty database file when there is none, and opens a
    connection. *)
Definition sqlite_connect (st : state) : option state :=
  if connect_fails then None
  else
    Some {| excel_entry := excel_entry st;
            db_file := Some (match db_file st with Some d => d | None => ∅ end);
            conn_open := true |}.

Definition conn_close (st : state) : state :=
  {| excel_entry := excel_entry st; db_file := db_file st; conn_open := false |}.

(** [try: body finally: fin]. *)
Definition try_finally (body : state -> state * option error)
    (fin : state -> state) (st : state) : state * option error :=
  let '(st', r) := body st in (fin st', r).

(** The body of the [try] block, on the open connection. *)
Definition convert_sheets (all_sheets : workbook) (st : state) : state * option error :=
  let d := match db_file st with Some d => d | None => ∅ end in
  let '(d', r) := write_sheets all_sheets d in
  ({| excel_entry := excel_entry st; db_file := Some d'; conn_open := conn_open st |}, r).

(** [main()]: the final state and the exception it raises, if any. *)
Definition main (st : state) : state * option error :=
  if negb (is_file (excel_entry st)) then
    (st, Some (FileNotFoundError (resolve EXCEL_FILE)))
  else
    match excel_entry st with
    | RegularFile bytes =>
        match read_excel bytes with
        | None => (st, Some ParseError)
        | Some all_sheets =>
            match sqlite_connect st with
            | None => (st, Some ConnectError)
            | Some conn => try_finally (convert_sheets all_sheets) conn_close conn
            end
        end
    | _ => (st, Some (FileNotFoundError (resolve EXCEL_FILE)))
    end.

(** ** Helpers to describe the outcome *)

(** The sheets written before the first faulting one, its table name and
    what the fault leaves behind. *)
Fixpoint first_fault (wb : workbook) : option (workbook * pystr * residue) :=
  match wb with
  | [] => None
  | (nm, df) :: rest =>
      match sql_fault (table_name nm) (frame_to_table df false) with
      | Some r => Some ([], table_name nm, r)
      | None =>
          match first_fault rest with
          | Some (pre, tn, r) => Some ((nm, df) :: pre, tn, r)
          | None => None
          end
      end
  end.

End Converter.

(** The frame of the last sheet whose derived table name is [n]. *)
Fixpoint last_named (wb : workbook) (n : pystr) : option dataframe :=
  match wb with
  | [] => None
  | (nm, df) :: rest =>
      match last_named rest n with
      | Some x => Some x
      | None => if bool_decide (table_name nm = n) then Some df else None
      end
  end.

(** One faultless step of the loop. *)
Definition write_step (d : db) (s : sheet) : db :=
  let '(nm, df) := s in <[table_name nm := frame_to_table df false]> d.

(** The tables a run that writes every sheet of [wb] puts in place. *)
Definition written (wb : workbook) : db := fold_left write_step wb ∅.

(** ** Concrete library behaviours for the examples below *)

(** The code points of an ASCII literal. *)
Definition u (s : string) : pystr :=
  map (fun a => Z.of_nat (nat_of_ascii a)) (list_ascii_of_string s).

Definition ex_resolve (p : string) : string := "/home/user/project/" ++ p.

(** A file that is a zip archive ("PK"). *)
Definition ex_bytes : list Byte.byte := [Byte.x50; Byte.x4b].

(** A reader for which every file holds the workbook [wb]. *)
Definition ex_read (wb : workbook) (bytes : list Byte.byte) : option workbook :=
  Some wb.

(** A reader that fails on every file. *)
Definition ex_read_fails (bytes : list Byte.byte) : option workbook := None.

Definition no_fault (name : pystr) (t : table) : option residue := None.

(** Every write to the table [bad] fails and leaves [r] behind. *)
Definition fault_on (bad : pystr) (r : residue) (name : pystr) (t : table)
  : option residue :=
  if bool_decide (name = bad) then Some r else None.

(** Three header columns and five data rows. *)
Definition ex_frame (base : Z) : dataframe :=
  {| df_columns := ["id"; "name"; "votes"];
     df_rows := map (fun i => [CInt (base + i); CText "candidate"; CInt (10 * i)])
                  [0; 1; 2; 3; 4]%Z |}.

(** One header column and one data row. *)
Definition ex_small_frame : dataframe :=
  {| df_columns := ["code"]; df_rows := [[CText "x"]] |}.

Definition ex_old_table : table :=
  {| tcols := ["legacy"]; trows := [[CBool true]] |}.

Definition ex_state (entry : fs_entry) (d : option db) : state :=
  {| excel_entry := entry; db_file := d; conn_open := false |}.

Definition ex_sales_wb : workbook :=
  [(u "Sales Data", ex_frame 0); (u "Inventory", ex_frame 100)].

Definition ex_collide_wb : workbook :=
  [(u "A B", ex_frame 0); (u "A_B", ex_frame 100)].

Close Scope string_scope.

(** ** Facts about the table-name rule *)

Lemma drop_space_split (l : pystr) :
  exists pre, l = pre ++ drop_space l /\ Forall (fun c => py_isspace c = true) pre /\
    (drop_space l = [] \/
     exists c rest, drop_space l = c :: rest /\ py_isspace c = false).
Proof.
  induction l as [|c l IH]; simpl.
  - exists []. auto.
  - destruct (py_isspace c) eqn:Hc.
    + destruct IH as (pre & Hl & Hp & Hd). exists (c :: pre).
      rewrite Hl at 1. auto.
    + exists []. simpl. split; [done|]. split; [constructor|]. right; eauto.
Qed.

Lemma drop_space_idem (l : pystr) : drop_space (drop_space l) = drop_space l.
Proof.
  induction l as [|c l IH]; simpl; [done|].
  destruct (py_isspace c) eqn:Hc; [done|]. simpl. by rewrite Hc.
Qed.

Lemma drop_space_head (l : pystr) :
  drop_space l = [] \/ exists c rest, drop_space l = c :: rest /\ py_isspace c = false.
Proof. by destruct (drop_space_split l) as (_ & _ & _ & H). Qed.

Lemma drop_space_keep (l : pystr) :
  (l = [] \/ exists c rest, l = c :: rest /\ py_isspace c = false) ->
  drop_space l = l.
Proof. intros [->|(c & rest & -> & Hc)]; simpl; [done|]. by rewrite Hc. Qed.

Lemma drop_space_all_space (l : pystr) :
  Forall (fun c => py_isspace c = true) l -> drop_space l = [].
Proof. induction 1 as [|c l Hc _ IH]; simpl; [done|]. by rewrite Hc. Qed.

Lemma drop_space_app_space (pre l : pystr) :
  Forall (fun c => py_isspace c = true) pre -> drop_space (pre ++ l) = drop_space l.
Proof. induction 1 as [|c pre Hc _ IH]; simpl; [done|]. by rewrite Hc. Qed.

Lemma drop_space_app (l m : pystr) :
  drop_space (l ++ m) =
    match drop_space l with [] => drop_space m | l' => l' ++ m end.
Proof.
  induction l as [|c l IH]; simpl; [done|].
  by destruct (py_isspace c).
Qed.

(** What [strip] returns has nothing left to strip at either end. *)
Lemma py_strip_stripped (l : pystr) :
  drop_space (py_strip l) = py_strip l /\
  drop_space (rev (py_strip l)) = rev (py_strip l).
Proof.
  unfold py_strip. rewrite rev_involutive. split; [|apply drop_space_idem].
  set (m := drop_space l).
  destruct (drop_space_split (rev m)) as (pre2 & Hm & _ & _).
  assert (Hm' : m = rev (drop_space (rev m)) ++ rev pre2).
  { rewrite <-rev_app_distr, <-Hm. by rewrite rev_involutive. }
  apply drop_space_keep.
  destruct (rev (drop_space (rev m))) as [|c rest] eqn:Hc; [by left|right].
  exists c, rest. split; [done|].
  destruct (drop_space_head l) as [He|(c1 & r1 & He & Hc1)];
    fold m in He; rewrite Hm' in He; simpl in He; [discriminate|].
  by injection He as -> _.
Qed.

Lemma py_strip_of_stripped (l : pystr) :
  drop_space l = l -> drop_space (rev l) = rev l -> py_strip l = l.
Proof.
  intros H1 H2. unfold py_strip. by rewrite H1, H2, rev_involutive.
Qed.

Lemma underscore_not_space (c : Z) :
  py_isspace c = false -> underscore c = c.
Proof.
  intros Hc. unfold underscore. destruct (Z.eqb_spec c 32) as [->|]; [|done].
  discriminate.
Qed.

Lemma underscore_idem (c : Z) : underscore (underscore c) = underscore c.
Proof.
  unfold underscore. destruct (Z.eqb_spec c 32); [done|].
  destruct (Z.eqb_spec c 32); [contradiction|done].
Qed.

Lemma drop_space_map_underscore (l : pystr) :
  drop_space l = l -> drop_space (map underscore l) = map underscore l.
Proof.
  destruct l as [|c rest]; simpl; [done|].
  destruct (py_isspace c) eqn:Hc; simpl.
  - intros H. exfalso. pose proof (f_equal (@length Z) H) as Hl.
    assert (length (drop_space rest) <= length rest).
    { clear. induction rest as [|c' r IH]; simpl; [lia|].
      destruct (py_isspace c'); simpl; lia. }
    simpl in Hl. lia.
  - intros _. by rewrite underscore_not_space, Hc.
Qed.

(** [strip] removes any whitespace padding around a string. *)
Lemma py_strip_padded (pre s suf : pystr) :
  Forall (fun c => py_isspace c = true) pre ->
  Forall (fun c => py_isspace c = true) suf ->
  py_strip (pre ++ s ++ suf) = py_strip s.
Proof.
  intros Hpre Hsuf. unfold py_strip.
  rewrite drop_space_app_space by done. rewrite drop_space_app.
  destruct (drop_space s) as [|c rest] eqn:Hs.
  - by rewrite (drop_space_all_space suf Hsuf).
  - by rewrite rev_app_distr, (drop_space_app_space (rev suf)) by by apply Forall_rev.
Qed.

(** ** Facts about the tables a run writes *)

Lemma fold_write_step (wb : workbook) (d : db) :
  fold_left write_step wb d = written wb ∪ d.
Proof.
  unfold written. revert d.
  induction wb as [|[nm df] rest IH]; intros d; simpl.
  - by rewrite (left_id_L ∅ (∪)).
  - rewrite (IH (<[_ := _]> d)), (IH (<[_ := _]> ∅)).
    rewrite <-(assoc_L (∪)). f_equal.
    by rewrite insert_empty, insert_union_singleton_l.
Qed.

Lemma written_cons (nm : pystr) (df : dataframe) (rest : workbook) (d : db) :
  written ((nm, df) :: rest) ∪ d
  = written rest ∪ <[table_name nm := frame_to_table df false]> d.
Proof.
  unfold written at 1. simpl.
  rewrite fold_write_step, <-(assoc_L (∪)). f_equal.
  by rewrite insert_empty, insert_union_singleton_l.
Qed.

Lemma written_nil : written [] = ∅.
Proof. reflexivity. Qed.

Lemma written_app (l1 l2 : workbook) (d : db) :
  written (l1 ++ l2) ∪ d = written l2 ∪ (written l1 ∪ d).
Proof.
  revert d. induction l1 as [|[nm df] l1 IH]; intros d; simpl.
  - by rewrite written_nil, (left_id_L ∅ (∪)).
  - by rewrite written_cons, IH, written_cons.
Qed.

Lemma lookup_written (wb : workbook) (n : pystr) :
  written wb !! n = option_map (fun df => frame_to_table df false) (last_named wb n).
Proof.
  induction wb as [|[nm df] rest IH]; simpl.
  - by rewrite ?written_nil, lookup_empty.
  - rewrite <-(right_id_L ∅ (∪) (written _)), written_cons, lookup_union, IH.
    destruct (last_named rest n); simpl.
    + by destruct (<[_ := _]> (∅ : db) !! n).
    + rewrite (left_id_L None (∪)).
      case_bool_decide as Hn.
      * subst n. by rewrite lookup_insert_eq.
      * by rewrite lookup_insert_ne, lookup_empty.
Qed.

Lemma last_named_app (l1 l2 : workbook) (n : pystr) :
  last_named (l1 ++ l2) n
  = match last_named l2 n with Some x => Some x | None => last_named l1 n end.
Proof.
  induction l1 as [|[nm df] l1 IH]; simpl.
  - by destruct (last_named l2 n).
  - rewrite IH. by destruct (last_named l2 n).
Qed.

Lemma last_named_absent (l : workbook) (n : pystr) :
  (forall x, x ∈ l -> table_name x.1 <> n) -> last_named l n = None.
Proof.
  induction l as [|[nm df] l IH]; intros Hl; simpl; [done|].
  rewrite IH by (intros x Hx; apply Hl; by apply elem_of_cons; right).
  rewrite bool_decide_false; [done|].
  apply (Hl (nm, df)). by apply elem_of_cons; left.
Qed.

Lemma last_named_last (l : workbook) (nm : pystr) (df : dataframe) :
  last_named (l ++ [(nm, df)]) (table_name nm) = Some df.
Proof.
  rewrite last_named_app. simpl. by rewrite bool_decide_true.
Qed.

Lemma last_named_found (wb : workbook) (n : pystr) (df : dataframe) :
  last_named wb n = Some df -> exists nm, (nm, df) ∈ wb /\ table_name nm = n.
Proof.
  induction wb as [|[nm0 df0] rest IH]; simpl; [done|].
  destruct (last_named rest n) as [x|].
  - intros [= ->]. destruct IH as (nm & Hin & Hn); [done|].
    exists nm. split; [by apply elem_of_cons; right|done].
  - case_bool_decide as Hn; [|done].
    intros [= <-]. exists nm0. split; [by apply elem_of_cons; left|done].
Qed.

Lemma last_named_unique (wb : workbook) (nm : pystr) (df : dataframe) :
  NoDup (map (fun x => table_name x.1) wb) -> (nm, df) ∈ wb ->
  last_named wb (table_name nm) = Some df.
Proof.
  induction wb as [|[nm0 df0] rest IH]; simpl; intros Hnd Hin.
  - by apply not_elem_of_nil in Hin.
  - apply NoDup_cons in Hnd as [Hnot Hnd].
    apply elem_of_cons in Hin as [Heq|Hin].
    + injection Heq as -> ->.
      rewrite last_named_absent.
      * by rewrite bool_decide_true.
      * intros x Hx Hn. apply Hnot. apply list_elem_of_fmap. exists x.
        simpl in Hn. by rewrite Hn.
    + by rewrite IH.
Qed.

Lemma dom_written (wb : workbook) :
  dom (written wb) = list_to_set (map (fun x => table_name x.1) wb).
Proof.
  induction wb as [|[nm df] rest IH]; simpl.
  - by rewrite ?written_nil, dom_empty_L.
  - rewrite <-(right_id_L ∅ (∪) (written _)), written_cons, dom_union_L,
      dom_insert_L, dom_empty_L, IH.
    set_solver.
Qed.

Lemma size_list_to_set_le (l : list pystr) :
  size (list_to_set l : gset pystr) <= length l.
Proof.
  induction l as [|x l IH]; cbn [list_to_set length].
  - by rewrite size_empty.
  - rewrite size_union_alt, size_singleton.
    pose proof (subseteq_size (list_to_set l ∖ {[x]} : gset pystr)
                  (list_to_set l) ltac:(set_solver)).
    lia.
Qed.

Lemma residue_twice (W d : db) (tn : pystr) (r : residue) :
  apply_residue tn r (W ∪ apply_residue tn r (W ∪ d))
  = apply_residue tn r (W ∪ d).
Proof.
  destruct r as [| |t]; simpl.
  - by rewrite (assoc_L (∪)), (idemp_L (∪)).
  - apply map_eq. intros i. destruct (decide (i = tn)) as [->|Hne].
    + by rewrite !lookup_delete_eq.
    + rewrite !lookup_delete_ne, !lookup_union, lookup_delete_ne, lookup_union
        by done.
      by destruct (W !! i), (d !! i).
  - apply map_eq. intros i. destruct (decide (i = tn)) as [->|Hne].
    + by rewrite !lookup_insert_eq.
    + rewrite !lookup_insert_ne, !lookup_union, lookup_insert_ne, lookup_union
        by done.
      by destruct (W !! i), (d !! i).
Qed.

(** ** Facts about the loop and [main] *)

Section ConverterFacts.

Variable resolve : string -> string.
Variable read_excel : list Byte.byte -> option workbook.
Variable sql_fault : pystr -> table -> option residue.
Variable connect_fails : bool.

Local Abbreviation main := (main resolve read_excel sql_fault connect_fails).
Local Abbreviation write_sheets := (write_sheets sql_fault).
Local Abbreviation first_fault := (first_fault sql_fault).
Local Abbreviation faultless x :=
  (sql_fault (table_name x.1) (frame_to_table x.2 false) = None).

Lemma write_sheets_spec (wb : workbook) (d : db) :
  write_sheets wb d =
    match first_fault wb with
    | None => (written wb ∪ d, None)
    | Some (pre, tn, r) =>
        (apply_residue tn r (written pre ∪ d), Some (DatabaseError tn))
    end.
Proof.
  revert d. induction wb as [|[nm df] rest IH]; intros d; simpl.
  - by rewrite ?written_nil, (left_id_L ∅ (∪)).
  - unfold to_sql; simpl.
    destruct (sql_fault _ _) as [r|]; simpl.
    + by rewrite ?written_nil, (left_id_L ∅ (∪)).
    + destruct (d !! table_name nm); rewrite IH;
      destruct (first_fault rest) as [[[pre tn] r]|]; by rewrite written_cons.
Qed.

Lemma main_spec (st : state) :
  main st =
    match excel_entry st with
    | RegularFile bytes =>
        match read_excel bytes with
        | None => (st, Some ParseError)
        | Some wb =>
            if connect_fails then (st, Some ConnectError) else
            let '(d', r) := write_sheets wb (from_option id ∅ (db_file st)) in
            ({| excel_entry := excel_entry st; db_file := Some d';
                conn_open := false |}, r)
        end
    | _ => (st, Some (FileNotFoundError (resolve EXCEL_FILE)))
    end.
Proof.
  unfold main. destruct (excel_entry st) as [bytes| |] eqn:He; simpl; [|done..].
  destruct (read_excel bytes) as [wb|]; [|done].
  unfold sqlite_connect. destruct connect_fails; [done|].
  unfold try_finally, convert_sheets; simpl.
  destruct (db_file st) as [d|]; simpl;
    destruct (write_sheets wb _); unfold conn_close; simpl; by rewrite He.
Qed.

Lemma first_fault_at (pre post : workbook) (nm : pystr) (df : dataframe)
    (r : residue) :
  (forall x, x ∈ pre -> faultless x) ->
  sql_fault (table_name nm) (frame_to_table df false) = Some r ->
  first_fault (pre ++ (nm, df) :: post) = Some (pre, table_name nm, r).
Proof.
  intros Hpre Hk. induction pre as [|[nm' df'] pre IH]; simpl.
  - by rewrite Hk.
  - pose proof (Hpre (nm', df') ltac:(set_solver)) as H0. simpl in H0.
    rewrite H0.
    rewrite IH; [done|]. intros x Hx. apply Hpre. set_solver.
Qed.

Lemma first_fault_app_faultless (l1 l2 : workbook) :
  (forall x, x ∈ l1 -> faultless x) ->
  first_fault (l1 ++ l2) =
    match first_fault l2 with
    | Some (pre, tn, r) => Some (l1 ++ pre, tn, r)
    | None => None
    end.
Proof.
  intros H1. induction l1 as [|[nm df] l1 IH]; simpl.
  - by destruct (first_fault l2) as [[[pre tn] r]|].
  - pose proof (H1 (nm, df) ltac:(set_solver)) as H0. simpl in H0.
    rewrite H0, IH by (intros x Hx; apply H1; set_solver).
    by destruct (first_fault l2) as [[[pre tn] r]|].
Qed.

Lemma first_fault_split (wb pre : workbook) (tn : pystr) (r : residue) :
  first_fault wb = Some (pre, tn, r) ->
  exists nm df post, wb = pre ++ (nm, df) :: post /\ tn = table_name nm /\
    sql_fault (table_name nm) (frame_to_table df false) = Some r.
Proof.
  revert pre. induction wb as [|[nm df] rest IH]; intros pre; simpl; [done|].
  destruct (sql_fault _ _) as [r'|] eqn:Hf.
  - intros [= <- <- <-]. by exists nm, df, rest.
  - destruct (first_fault rest) as [[[pre' tn'] r']|]; [|done].
    intros [= <- <- <-]. destruct (IH pre' eq_refl) as (nm' & df' & post & -> & ? & ?).
    by exists nm', df', post.
Qed.

Lemma first_fault_none_iff (wb : workbook) :
  first_fault wb = None <-> forall x, x ∈ wb -> faultless x.
Proof.
  induction wb as [|[nm df] rest IH]; simpl.
  - split; [|done]. intros _ x Hx. by apply not_elem_of_nil in Hx.
  - destruct (sql_fault _ _) as [r|] eqn:Hf.
    + split; [done|]. intros H.
      pose proof (H (nm, df) ltac:(set_solver)) as H0. simpl in H0. congruence.
    + destruct (first_fault rest) as [[[pre tn] r]|].
      * split; [done|]. intros H. enough (Some (pre, tn, r) = None) by done.
        apply IH. intros x Hx. apply H. set_solver.
      * split; [|done]. intros _ x Hx. apply elem_of_cons in Hx as [->|Hx].
        -- done.
        -- by apply IH.
Qed.

Lemma main_success (st st' : state) (bytes : list Byte.byte) (wb : workbook) :
  excel_entry st = RegularFile bytes ->
  read_excel bytes = Some wb ->
  main st = (st', None) ->
  connect_fails = false /\ first_fault wb = None /\
  st' = {| excel_entry := excel_entry st;
           db_file := Some (written wb ∪ from_option id ∅ (db_file st));
           conn_open := false |}.
Proof.
  intros He Hr Hm. rewrite main_spec, He, Hr in Hm.
  destruct connect_fails; [done|]. rewrite write_sheets_spec in Hm.
  destruct (first_fault wb) as [[[pre tn] r]|]; [done|].
  rewrite He. by inversion Hm.
Qed.

End ConverterFacts.

(** ** The claims about the table-name rule *)

(** C2: the table name of a sheet called [s] is [s] with its surrounding
    whitespace (every code point [str.strip()] removes, Unicode ones
    included) cut off and each space of what is left turned into an
    underscore; every other character is kept as it is (no case folding,
    no escaping). *)
Theorem table_name_trim_then_underscore (s : pystr) :
  exists pre core suf : pystr,
    s = pre ++ core ++ suf /\
    Forall (fun c => py_isspace c = true) pre /\
    Forall (fun c => py_isspace c = true) suf /\
    (core = [] \/
     (exists c rest, core = c :: rest /\ py_isspace c = false) /\
     (exists c init, core = init ++ [c] /\ py_isspace c = false)) /\
    table_name s = map (fun c => if (c =? 32)%Z then 95%Z else c) core.
Proof.
  destruct (drop_space_split s) as (pre & Hl & Hpre & Hd1).
  set (l1 := drop_space s) in *.
  destruct (drop_space_split (rev l1)) as (pre2 & Hl2 & Hpre2 & Hd2).
  set (r2 := drop_space (rev l1)) in *.
  assert (Hl1 : l1 = rev r2 ++ rev pre2).
  { rewrite <-rev_app_distr, <-Hl2. by rewrite rev_involutive. }
  exists pre, (rev r2), (rev pre2).
  split; [rewrite Hl at 1; by rewrite Hl1|].
  split; [done|]. split; [by apply Forall_rev|].
  split.
  - destruct Hd2 as [Hr2|(c & rest & Hr2 & Hc)]; [left; by rewrite Hr2|].
    right. split.
    + destruct Hd1 as [He|(c1 & rest1 & He & Hc1)].
      { exfalso. rewrite Hl1, Hr2 in He. simpl in He.
        destruct (rev rest); discriminate. }
      rewrite Hl1 in He. destruct (rev r2) as [|x y] eqn:Hrv.
      { rewrite Hr2 in Hrv. simpl in Hrv. destruct (rev rest); discriminate. }
      simpl in He. injection He as -> _. eauto.
    + exists c, (rev rest). by rewrite Hr2.
  - reflexivity.
Qed.

(** The table name has no space character, and nothing for [strip] to
    remove at either end. *)
Theorem table_name_clean (s : pystr) :
  (32%Z ∉ table_name s) /\ py_strip (table_name s) = table_name s.
Proof.
  destruct (py_strip_stripped s) as [H1 H2].
  split.
  - unfold table_name, py_replace_space. intros Hin.
    apply list_elem_of_In, in_map_iff in Hin as (c & Hc & _).
    unfold underscore in Hc. destruct (Z.eqb_spec c 32); [discriminate|].
    by subst.
  - unfold table_name, py_replace_space. apply py_strip_of_stripped.
    + by apply drop_space_map_underscore.
    + rewrite <-map_rev. by apply drop_space_map_underscore.
Qed.

(** Deriving a table name from a table name changes nothing: a sheet
    already called like its table keeps that name. *)
Theorem table_name_idempotent (s : pystr) :
  table_name (table_name s) = table_name s.
Proof.
  destruct (py_strip_stripped s) as [H1 H2].
  unfold table_name at 1 2, py_replace_space at 2.
  rewrite py_strip_of_stripped.
  - unfold py_replace_space. rewrite map_map. apply map_ext. apply underscore_idem.
  - by apply drop_space_map_underscore.
  - rewrite <-map_rev. by apply drop_space_map_underscore.
Qed.

(** A sheet name without any whitespace character is used as the table
    name as it is (no case folding, no escaping). *)
Theorem table_name_no_whitespace (s : pystr) :
  Forall (fun c => py_isspace c = false) s ->
  table_name s = s.
Proof.
  intros Hs. unfold table_name, py_replace_space.
  rewrite py_strip_of_stripped.
  - rewrite <-(map_id s) at 2.
    apply map_ext_in. intros c Hc. apply underscore_not_space.
    by apply (proj1 (List.Forall_forall _ _) Hs).
  - apply drop_space_keep. destruct s as [|c r]; [by left|].
    right. inversion Hs. eauto.
  - apply drop_space_keep. apply Forall_rev in Hs.
    destruct (rev s) as [|c r]; [by left|].
    right. inversion Hs. eauto.
Qed.

(** Whitespace around a sheet name, ASCII or not (a no-break space, an
    ideographic space, ...), does not change its table name. *)
Theorem table_name_padding (pre s suf : pystr) :
  Forall (fun c => py_isspace c = true) pre ->
  Forall (fun c => py_isspace c = true) suf ->
  table_name (pre ++ s ++ suf) = table_name s.
Proof. intros Hpre Hsuf. unfold table_name. by rewrite py_strip_padded. Qed.

(** ** The claims about [main] *)

Section Claims.

Variable resolve : string -> string.
Variable read_excel : list Byte.byte -> option workbook.
Variable sql_fault : pystr -> table -> option residue.
Variable connect_fails : bool.

Local Abbreviation main := (main resolve read_excel sql_fault connect_fails).
Local Abbreviation faultless x :=
  (sql_fault (table_name x.1) (frame_to_table x.2 false) = None).

(** C4: when [EXCEL_FILE] does not exist, [main] raises [FileNotFoundError]
    with the resolved path and leaves the state as it was: no database file
    is created or changed and no connection is opened. *)
Theorem missing_source_no_effect (st : state) :
  excel_entry st = Missing ->
  main st = (st, Some (FileNotFoundError (resolve EXCEL_FILE))).
Proof. intros He. by rewrite main_spec, He. Qed.

(** C10: a directory at [EXCEL_FILE] gives the same [FileNotFoundError]
    with the resolved path, and nothing else happens. *)
Theorem directory_source_no_effect (st : state) :
  excel_entry st = Directory ->
  main st = (st, Some (FileNotFoundError (resolve EXCEL_FILE))).
Proof. intros He. by rewrite main_spec, He. Qed.

(** C7: when pandas cannot read the file, [main] raises that error and the
    database is neither opened nor written. *)
Theorem parse_failure_no_write (st : state) (bytes : list Byte.byte) :
  excel_entry st = RegularFile bytes ->
  read_excel bytes = None ->
  main st = (st, Some ParseError).
Proof. intros He Hr. by rewrite main_spec, He, Hr. Qed.

(** C9: when parsing fails and there was no database file, there is still
    none afterwards. *)
Theorem parse_failure_no_db_file (st : state) (bytes : list Byte.byte) :
  excel_entry st = RegularFile bytes ->
  read_excel bytes = None ->
  db_file st = None ->
  db_file (main st).1 = None.
Proof. intros He Hr Hd. by rewrite main_spec, He, Hr. Qed.

(** C5: a second run from the state the first one left gives the same
    state (the same database) and the same outcome as the first. *)
Theorem run_twice_same_as_once (st : state) :
  main (main st).1 = main st.
Proof.
  rewrite (main_spec resolve read_excel sql_fault connect_fails st).
  destruct (excel_entry st) as [bytes| |] eqn:He; simpl.
  - destruct (read_excel bytes) as [wb|] eqn:Hr; simpl.
    + rewrite main_spec. destruct connect_fails; simpl.
      * by rewrite He, Hr.
      * rewrite write_sheets_spec.
        destruct (first_fault sql_fault wb) as [[[pre tn] r]|] eqn:Hf; simpl;
          rewrite ?He, Hr, write_sheets_spec, Hf; simpl.
        -- by rewrite residue_twice.
        -- by rewrite (assoc_L (∪)), (idemp_L (∪)).
    + by rewrite main_spec, He, Hr.
  - by rewrite main_spec, He.
  - by rewrite main_spec, He.
Qed.

(** C1 (amended): after a successful run the connection is closed and the
    database holds, under each derived table name, exactly the table of the
    last sheet deriving that name (whatever was there before is replaced,
    not appended to); every other table is as it was.  Its tables are those
    it held before together with one per distinct derived name; so when the
    derived names are pairwise distinct and the database had no tables, it
    holds exactly one table per sheet. *)
Theorem success_one_table_per_name (st st' : state) (bytes : list Byte.byte)
    (wb : workbook) :
  excel_entry st = RegularFile bytes ->
  read_excel bytes = Some wb ->
  main st = (st', None) ->
  conn_open st' = false /\
  exists d', db_file st' = Some d' /\
    (forall n, d' !! n =
       match last_named wb n with
       | Some df => Some (frame_to_table df false)
       | None => from_option id ∅ (db_file st) !! n
       end) /\
    dom d' = dom (from_option id ∅ (db_file st))
             ∪ list_to_set (map (fun x => table_name x.1) wb) /\
    (NoDup (map (fun x => table_name x.1) wb) ->
     from_option id ∅ (db_file st) = ∅ -> size d' = length wb).
Proof.
  intros He Hr Hm.
  destruct (main_success resolve read_excel sql_fault connect_fails st st' bytes wb
              He Hr Hm) as (_ & _ & ->).
  split; [done|]. eexists; split; [done|]. split; [|split].
  - intros n. rewrite lookup_union, lookup_written.
    by destruct (last_named wb n), (from_option id ∅ (db_file st) !! n).
  - rewrite dom_union_L, dom_written. set_solver.
  - intros Hnd H0. rewrite H0, (right_id_L ∅ (∪)), <-size_dom, dom_written.
    rewrite size_list_to_set by done. by rewrite length_map.
Qed.

(** C3 (amended): when the database opens and the write of sheet [k]
    (name [nm]) is the first to fail, [main] raises that error with the
    connection closed; the sheets after [k] are not written: apart from the
    name of sheet [k], each table holds the last of sheets [1..k-1]
    deriving its name, or else what the database held before the run.
    What stays under sheet [k]'s own name is what the failed write left
    there. *)
Theorem write_failure_keeps_prefix (st : state) (bytes : list Byte.byte)
    (pre post : workbook) (nm : pystr) (df : dataframe) (r : residue) :
  excel_entry st = RegularFile bytes ->
  read_excel bytes = Some (pre ++ (nm, df) :: post) ->
  connect_fails = false ->
  (forall x, x ∈ pre -> faultless x) ->
  sql_fault (table_name nm) (frame_to_table df false) = Some r ->
  exists d',
    main st = ({| excel_entry := excel_entry st; db_file := Some d';
                  conn_open := false |}, Some (DatabaseError (table_name nm))) /\
    d' = apply_residue (table_name nm) r (written pre ∪ from_option id ∅ (db_file st)) /\
    (forall n, n <> table_name nm ->
       d' !! n = match last_named pre n with
                 | Some df' => Some (frame_to_table df' false)
                 | None => from_option id ∅ (db_file st) !! n
                 end).
Proof.
  intros He Hr Hc Hpre Hk. rewrite main_spec, He, Hr, Hc, write_sheets_spec.
  rewrite (first_fault_at sql_fault pre post nm df r Hpre Hk).
  eexists; split; [done|]. split; [done|].
  intros n Hn. destruct r as [| |t]; simpl;
    rewrite ?lookup_delete_ne, ?lookup_insert_ne by done;
    rewrite lookup_union, lookup_written;
    by destruct (last_named pre n), (from_option id ∅ (db_file st) !! n).
Qed.

(** C6 (amended): when the database opens and a sheet is written without
    error (it and every sheet before it), and no later sheet derives its
    table name, then, whether or not a later sheet's write fails, its table
    has the frame's columns in their order, with no index column, and the
    frame's rows in their order. *)
Theorem written_sheet_matches_frame (st : state) (bytes : list Byte.byte)
    (pre post : workbook) (nm : pystr) (df : dataframe) :
  excel_entry st = RegularFile bytes ->
  read_excel bytes = Some (pre ++ (nm, df) :: post) ->
  connect_fails = false ->
  (forall x, x ∈ pre ++ [(nm, df)] -> faultless x) ->
  (forall x, x ∈ post -> table_name x.1 <> table_name nm) ->
  exists d' t, db_file (main st).1 = Some d' /\ d' !! table_name nm = Some t /\
    tcols t = df_columns df /\ trows t = df_rows df /\
    length (trows t) = length (df_rows df).
Proof.
  intros He Hr Hc Hok Hpost.
  rewrite main_spec, He, Hr, Hc, write_sheets_spec.
  replace (pre ++ (nm, df) :: post) with ((pre ++ [(nm, df)]) ++ post)
    by (by rewrite <-app_assoc).
  rewrite (first_fault_app_faultless sql_fault _ _ Hok).
  destruct (first_fault sql_fault post) as [[[p tn] r]|] eqn:Hf; simpl.
  - destruct (first_fault_split sql_fault post p tn r Hf)
      as (nm' & df' & post' & Hpost' & -> & _).
    assert (Hne : table_name nm' <> table_name nm).
    { apply (Hpost (nm', df')). rewrite Hpost'. set_solver. }
    exists (apply_residue (table_name nm') r
              (written ((pre ++ [(nm, df)]) ++ p) ∪ from_option id ∅ (db_file st))),
      (frame_to_table df false).
    split; [done|]. split.
    + destruct r as [| |t]; simpl;
        rewrite ?lookup_delete_ne, ?lookup_insert_ne by done;
        rewrite lookup_union, lookup_written, last_named_app;
        rewrite (last_named_absent p)
          by (intros x Hx; apply Hpost; rewrite Hpost'; set_solver);
        rewrite last_named_last; simpl;
        by destruct (from_option id ∅ (db_file st) !! table_name nm).
    + unfold frame_to_table. simpl. auto.
  - exists (written ((pre ++ [(nm, df)]) ++ post) ∪ from_option id ∅ (db_file st)),
      (frame_to_table df false).
    split; [done|]. split.
    + rewrite lookup_union, lookup_written, last_named_app,
        (last_named_absent post) by done.
      rewrite last_named_last. simpl.
      by destruct (from_option id ∅ (db_file st) !! table_name nm).
    + unfold frame_to_table. simpl. auto.
Qed.

(** C8 (amended): on a successful run where two sheets derive the same
    table name, that table holds the last such sheet's frame, the run writes
    fewer distinct tables than there are sheets, and tables of other names
    are kept; so a database that had no tables ends up with fewer tables
    than sheets. *)
Theorem colliding_names_last_wins (st st' : state) (bytes : list Byte.byte)
    (a b c : workbook) (nm1 nm2 : pystr) (df1 df2 : dataframe) :
  excel_entry st = RegularFile bytes ->
  read_excel bytes = Some (a ++ (nm1, df1) :: b ++ (nm2, df2) :: c) ->
  main st = (st', None) ->
  table_name nm1 = table_name nm2 ->
  (forall x, x ∈ c -> table_name x.1 <> table_name nm2) ->
  exists d', db_file st' = Some d' /\
    d' = written (a ++ (nm1, df1) :: b ++ (nm2, df2) :: c)
         ∪ from_option id ∅ (db_file st) /\
    d' !! table_name nm2 = Some (frame_to_table df2 false) /\
    size (written (a ++ (nm1, df1) :: b ++ (nm2, df2) :: c))
      < length (a ++ (nm1, df1) :: b ++ (nm2, df2) :: c) /\
    (from_option id ∅ (db_file st) = ∅ ->
     size d' < length (a ++ (nm1, df1) :: b ++ (nm2, df2) :: c)).
Proof.
  intros He Hr Hm Hn Hc.
  destruct (main_success resolve read_excel sql_fault connect_fails st st' bytes _
              He Hr Hm) as (_ & _ & ->).
  assert (Hsz : size (written (a ++ (nm1, df1) :: b ++ (nm2, df2) :: c))
                < length (a ++ (nm1, df1) :: b ++ (nm2, df2) :: c)).
  { rewrite <-size_dom, dom_written, !map_app. simpl. rewrite map_app. simpl.
    rewrite Hn.
    set (la := map (fun x : sheet => table_name x.1) a).
    set (lb := map (fun x : sheet => table_name x.1) b).
    set (lc := map (fun x : sheet => table_name x.1) c).
    assert (Hs : (list_to_set (la ++ table_name nm2 :: lb ++ table_name nm2 :: lc)
                  : gset pystr)
                 = list_to_set (la ++ lb ++ table_name nm2 :: lc)).
    { rewrite !list_to_set_app_L. simpl. rewrite !list_to_set_app_L. simpl.
      set_solver. }
    rewrite Hs.
    pose proof (size_list_to_set_le (la ++ lb ++ table_name nm2 :: lc)) as Hle.
    unfold la, lb, lc in *. rewrite !length_app in Hle. simpl in Hle.
    rewrite !length_map in Hle.
    rewrite length_app. simpl. rewrite length_app. simpl. lia. }
  eexists; split; [done|]. split; [done|]. split; [|split; [done|]].
  - rewrite lookup_union, lookup_written, last_named_app. simpl.
    rewrite last_named_app. simpl.
    rewrite last_named_absent by done. rewrite bool_decide_true by done. simpl.
    by destruct (from_option id ∅ (db_file st) !! table_name nm2).
  - intros H0. by rewrite H0, (right_id_L ∅ (∪)).
Qed.

End Claims.

(** ** Further properties of [main] *)

Section RunFacts.

Variable resolve : string -> string.
Variable sql_fault : pystr -> table -> option residue.
Variable connect_fails : bool.

Local Abbreviation run read := (main resolve read sql_fault connect_fails).
Local Abbreviation faultless x :=
  (sql_fault (table_name x.1) (frame_to_table x.2 false) = None).

(** Once the workbook is parsed, [main] only ever changes tables named
    after its sheets: when [sqlite3.connect] raises nothing changes at all,
    and otherwise, whatever the outcome of the loop, a table whose name no
    sheet derives keeps its content (or stays absent). *)
Theorem main_keeps_other_tables (read : list Byte.byte -> option workbook)
    (st : state) (bytes : list Byte.byte) (wb : workbook) (n : pystr) :
  excel_entry st = RegularFile bytes ->
  read bytes = Some wb ->
  (forall x, x ∈ wb -> table_name x.1 <> n) ->
  (connect_fails = true -> (run read st).1 = st) /\
  (connect_fails = false ->
   exists d', db_file (run read st).1 = Some d' /\
     d' !! n = from_option id ∅ (db_file st) !! n).
Proof.
  intros He Hr Hn. rewrite main_spec, He, Hr.
  split; intros ->; [done|]. rewrite write_sheets_spec.
  destruct (first_fault sql_fault wb) as [[[pre tn] r]|] eqn:Hf; simpl;
    eexists; split; try done.
  - destruct (first_fault_split sql_fault wb pre tn r Hf)
      as (nm & df & post & -> & -> & _).
    assert (Htn : table_name nm <> n) by (apply (Hn (nm, df)); set_solver).
    destruct r as [| |t]; simpl;
      rewrite ?lookup_delete_ne, ?lookup_insert_ne by done;
      rewrite lookup_union, lookup_written, last_named_absent by set_solver;
      by destruct (from_option id ∅ (db_file st) !! n).
  - rewrite lookup_union, lookup_written, last_named_absent by done.
    by destruct (from_option id ∅ (db_file st) !! n).
Qed.

(** Once the workbook is parsed and the database opened, whatever happens
    in the loop, [main] returns with the connection closed, the database
    file in place (created if it was missing) and the source file as it
    was. *)
Theorem main_after_parse_closed (read : list Byte.byte -> option workbook)
    (st : state) (bytes : list Byte.byte) (wb : workbook) :
  excel_entry st = RegularFile bytes ->
  read bytes = Some wb ->
  connect_fails = false ->
  conn_open (run read st).1 = false /\ is_Some (db_file (run read st).1) /\
  excel_entry (run read st).1 = excel_entry st.
Proof.
  intros He Hr Hc. rewrite main_spec, He, Hr, Hc.
  destruct (write_sheets sql_fault wb _); simpl. by rewrite ?He.
Qed.

(** When [sqlite3.connect] raises, [main] raises that error after the
    workbook is parsed, and leaves everything as it was: no table is
    written and no database file is created. *)
Theorem connect_failure_no_effect (read : list Byte.byte -> option workbook)
    (st : state) (bytes : list Byte.byte) (wb : workbook) :
  excel_entry st = RegularFile bytes ->
  read bytes = Some wb ->
  connect_fails = true ->
  run read st = (st, Some ConnectError).
Proof. intros He Hr Hc. by rewrite main_spec, He, Hr, Hc. Qed.

(** A run on a parsed workbook that raises nothing has opened the
    database, and no sheet's table write met a database fault. *)
Theorem main_success_no_fault (read : list Byte.byte -> option workbook)
    (st st' : state) (bytes : list Byte.byte) (wb : workbook) :
  excel_entry st = RegularFile bytes ->
  read bytes = Some wb ->
  run read st = (st', None) ->
  connect_fails = false /\ forall x, x ∈ wb -> faultless x.
Proof.
  intros He Hr Hm.
  destruct (main_success resolve read sql_fault connect_fails st st' bytes wb He Hr Hm)
    as (Hc & Hf & _).
  split; [done|]. by apply first_fault_none_iff.
Qed.

(** Two successful runs in a row, on workbooks [wb1] then [wb2], leave the
    same state as one run on a workbook with the sheets of [wb1] followed
    by those of [wb2]. *)
Theorem main_runs_compose (read1 read2 read12 : list Byte.byte -> option workbook)
    (st st1 st2 : state) (bytes : list Byte.byte) (wb1 wb2 : workbook) :
  excel_entry st = RegularFile bytes ->
  read1 bytes = Some wb1 -> read2 bytes = Some wb2 ->
  read12 bytes = Some (wb1 ++ wb2) ->
  run read1 st = (st1, None) -> run read2 st1 = (st2, None) ->
  run read12 st = (st2, None).
Proof.
  intros He H1 H2 H12 Hm1 Hm2.
  destruct (main_success resolve read1 sql_fault connect_fails st st1 bytes wb1
              He H1 Hm1) as (Hc & Hf1 & ->).
  assert (He1 : excel_entry {| excel_entry := excel_entry st;
      db_file := Some (written wb1 ∪ from_option id ∅ (db_file st));
      conn_open := false |} = RegularFile bytes) by done.
  destruct (main_success resolve read2 sql_fault connect_fails _ st2 bytes wb2
              He1 H2 Hm2) as (_ & Hf2 & ->).
  rewrite main_spec, He, H12, Hc, write_sheets_spec.
  assert (Hf : first_fault sql_fault (wb1 ++ wb2) = None).
  { apply first_fault_none_iff. intros x Hx.
    apply elem_of_app in Hx as [Hx|Hx].
    - by apply (proj1 (first_fault_none_iff sql_fault wb1)).
    - by apply (proj1 (first_fault_none_iff sql_fault wb2)). }
  rewrite Hf. simpl. by rewrite ?He, written_app.
Qed.

(** When the sheets' table names are pairwise distinct, the order of the
    sheets in the workbook does not matter for a successful run. *)
Theorem main_sheet_order_irrelevant (read1 read2 : list Byte.byte -> option workbook)
    (st st' : state) (bytes : list Byte.byte) (wb wb' : workbook) :
  excel_entry st = RegularFile bytes ->
  read1 bytes = Some wb -> read2 bytes = Some wb' ->
  wb ≡ₚ wb' ->
  NoDup (map (fun x => table_name x.1) wb) ->
  run read1 st = (st', None) ->
  run read2 st = (st', None).
Proof.
  intros He H1 H2 Hp Hnd Hm.
  destruct (main_success resolve read1 sql_fault connect_fails st st' bytes wb
              He H1 Hm) as (Hc & Hf & ->).
  assert (Hnd' : NoDup (map (fun x => table_name x.1) wb')).
  { by rewrite <-Hp. }
  assert (Hf' : first_fault sql_fault wb' = None).
  { apply first_fault_none_iff. intros x Hx.
    apply (proj1 (first_fault_none_iff sql_fault wb) Hf). by rewrite Hp. }
  rewrite main_spec, He, H2, Hc, write_sheets_spec, Hf'. simpl. rewrite ?He.
  do 3 f_equal. f_equal. apply map_eq. intros n.
  rewrite !lookup_written.
  destruct (last_named wb n) as [df|] eqn:Hl.
  - destruct (last_named_found wb n df Hl) as (nm & Hin & <-).
    rewrite (last_named_unique wb' nm df Hnd'); [done|]. by rewrite <-Hp.
  - destruct (last_named wb' n) as [df|] eqn:Hl'; [|done].
    destruct (last_named_found wb' n df Hl') as (nm & Hin & <-).
    rewrite (last_named_unique wb nm df Hnd) in Hl; [done|]. by rewrite Hp.
Qed.

End RunFacts.

(** ** Witnesses and counterexamples *)

(** A no-break space and an ideographic space around a name are stripped,
    as [str.strip()] does. *)
Example table_name_unicode_space :
  table_name [160; 88; 32; 89; 12288]%Z = [88; 95; 89]%Z.
Proof. reflexivity. Qed.

Lemma missing_source_no_effect_witness :
  main ex_resolve ex_read_fails no_fault false (ex_state Missing None)
  = (ex_state Missing None, Some (FileNotFoundError "/home/user/project/db.xlsx")).
Proof. apply missing_source_no_effect. reflexivity. Defined.

Lemma directory_source_no_effect_witness :
  main ex_resolve ex_read_fails no_fault false (ex_state Directory None)
  = (ex_state Directory None, Some (FileNotFoundError "/home/user/project/db.xlsx")).
Proof. apply directory_source_no_effect. reflexivity. Defined.

Lemma parse_failure_no_write_witness :
  main ex_resolve ex_read_fails no_fault false
    (ex_state (RegularFile ex_bytes) (Some {[ u "Votes" := ex_old_table ]}))
  = (ex_state (RegularFile ex_bytes) (Some {[ u "Votes" := ex_old_table ]}),
     Some ParseError).
Proof. apply (parse_failure_no_write _ _ _ _ _ ex_bytes); reflexivity. Defined.

Lemma parse_failure_no_db_file_witness :
  db_file (main ex_resolve ex_read_fails no_fault false
             (ex_state (RegularFile ex_bytes) None)).1 = None.
Proof. apply (parse_failure_no_db_file _ _ _ _ _ ex_bytes); reflexivity. Defined.

(** The example of the spec: sheets "Sales Data" and "Inventory" give the
    tables [Sales_Data] and [Inventory]. *)
Lemma success_one_table_per_name_witness :
  exists d',
    db_file (main ex_resolve (ex_read ex_sales_wb) no_fault false
               (ex_state (RegularFile ex_bytes) None)).1 = Some d' /\
    size d' = 2 /\
    d' !! u "Sales_Data" = Some (frame_to_table (ex_frame 0) false).
Proof.
  destruct (success_one_table_per_name ex_resolve (ex_read ex_sales_wb) no_fault false
              (ex_state (RegularFile ex_bytes) None)
              (main ex_resolve (ex_read ex_sales_wb) no_fault false
                 (ex_state (RegularFile ex_bytes) None)).1
              ex_bytes ex_sales_wb eq_refl eq_refl)
    as [_ (d' & Hd & Hlk & _ & Hsz)].
  - vm_compute. reflexivity.
  - exists d'. split; [exact Hd|]. split.
    + apply Hsz; [apply (bool_decide_unpack _); vm_compute; reflexivity|reflexivity].
    + rewrite Hlk. reflexivity.
Defined.

(** Two sheets, a successful run, one table. *)
Lemma success_tables_counterexample :
  let r := main ex_resolve (ex_read ex_collide_wb) no_fault false
             (ex_state (RegularFile ex_bytes) None) in
  r.2 = None /\ option_map size (db_file r.1) = Some 1 /\
  length ex_collide_wb = 2.
Proof. vm_compute. auto. Qed.

(** A table named like a sheet after the failing one, left from before the
    run, is still there. *)
Lemma write_failure_counterexample :
  let r := main ex_resolve
             (ex_read [(u "Sales Data", ex_frame 0); (u "Bad", ex_frame 50);
                       (u "Inventory", ex_frame 100)])
             (fault_on (u "Bad") Untouched) false
             (ex_state (RegularFile ex_bytes)
                (Some {[ u "Inventory" := ex_old_table ]})) in
  r.2 = Some (DatabaseError (u "Bad")) /\
  match db_file r.1 with Some d => d !! u "Inventory" | None => None end
  = Some ex_old_table.
Proof. vm_compute. auto. Qed.

Lemma write_failure_keeps_prefix_witness :
  exists d',
    main ex_resolve
      (ex_read [(u "Sales Data", ex_frame 0); (u "Bad", ex_frame 50);
                (u "Inventory", ex_frame 100)])
      (fault_on (u "Bad") Dropped) false
      (ex_state (RegularFile ex_bytes) None)
    = ({| excel_entry := RegularFile ex_bytes; db_file := Some d';
          conn_open := false |}, Some (DatabaseError (u "Bad"))) /\
    d' !! u "Sales_Data" = Some (frame_to_table (ex_frame 0) false) /\
    d' !! u "Inventory" = None.
Proof.
  destruct (write_failure_keeps_prefix ex_resolve
              (ex_read [(u "Sales Data", ex_frame 0); (u "Bad", ex_frame 50);
                        (u "Inventory", ex_frame 100)])
              (fault_on (u "Bad") Dropped) false
              (ex_state (RegularFile ex_bytes) None) ex_bytes
              [(u "Sales Data", ex_frame 0)] [(u "Inventory", ex_frame 100)]
              (u "Bad") (ex_frame 50) Dropped eq_refl eq_refl eq_refl)
    as (d' & Hm & _ & Hlk).
  - intros x Hx. apply list_elem_of_singleton in Hx. subst x. reflexivity.
  - reflexivity.
  - exists d'. split; [exact Hm|]. split.
    + rewrite Hlk by (vm_compute; discriminate). reflexivity.
    + rewrite Hlk by (vm_compute; discriminate). reflexivity.
Defined.

(** A sheet written without error whose table a later sheet of the same
    derived name replaces: the table ends up with the later frame's
    columns. *)
Lemma table_replaced_counterexample :
  let r := main ex_resolve
             (ex_read [(u "A B", ex_small_frame); (u "A_B", ex_frame 0)])
             no_fault false (ex_state (RegularFile ex_bytes) None) in
  r.2 = None /\
  match db_file r.1 with
  | Some d => option_map tcols (d !! u "A_B")
  | None => None
  end = Some ["id"; "name"; "votes"]%string /\
  df_columns ex_small_frame = ["code"]%string.
Proof. vm_compute. auto. Qed.

(** The table of "Sales Data" survives the failure of the next sheet. *)
Lemma written_sheet_matches_frame_witness :
  exists d' t,
    db_file (main ex_resolve
               (ex_read [(u "Sales Data", ex_frame 0); (u "Bad", ex_frame 50)])
               (fault_on (u "Bad") Dropped) false
               (ex_state (RegularFile ex_bytes) None)).1 = Some d' /\
    d' !! u "Sales_Data" = Some t /\ tcols t = ["id"; "name"; "votes"]%string /\
    length (trows t) = 5.
Proof.
  destruct (written_sheet_matches_frame ex_resolve
              (ex_read [(u "Sales Data", ex_frame 0); (u "Bad", ex_frame 50)])
              (fault_on (u "Bad") Dropped) false
              (ex_state (RegularFile ex_bytes) None)
              ex_bytes [] [(u "Bad", ex_frame 50)] (u "Sales Data") (ex_frame 0)
              eq_refl eq_refl eq_refl)
    as (d' & t & Hd & Hlk & Hc & _ & Hn).
  - intros x Hx. apply list_elem_of_singleton in Hx. subst x. reflexivity.
  - intros x Hx. apply list_elem_of_singleton in Hx. subst x.
    intros Heq. vm_compute in Heq. discriminate Heq.
  - exists d', t. split; [exact Hd|]. split; [exact Hlk|].
    split; [exact Hc|]. rewrite Hn. reflexivity.
Defined.

(** Two colliding sheets next to two older tables: three tables, two
    sheets. *)
Lemma colliding_names_counterexample :
  let r := main ex_resolve (ex_read [(u "X", ex_frame 0); (u " X ", ex_frame 100)])
             no_fault false
             (ex_state (RegularFile ex_bytes)
                (Some (<[ u "Votes" := ex_old_table ]> {[ u "Users" := ex_old_table ]}))) in
  r.2 = None /\ option_map size (db_file r.1) = Some 3.
Proof. vm_compute. auto. Qed.

Lemma colliding_names_last_wins_witness :
  exists d',
    db_file (main ex_resolve
               (ex_read ([] ++ (u "X", ex_frame 0) :: [] ++ (u " X ", ex_frame 100) :: []))
               no_fault false (ex_state (RegularFile ex_bytes) None)).1 = Some d' /\
    d' !! u "X" = Some (frame_to_table (ex_frame 100) false) /\ size d' < 2.
Proof.
  destruct (colliding_names_last_wins ex_resolve
              (ex_read ([] ++ (u "X", ex_frame 0) :: [] ++ (u " X ", ex_frame 100) :: []))
              no_fault false (ex_state (RegularFile ex_bytes) None)
              (main ex_resolve
                 (ex_read ([] ++ (u "X", ex_frame 0) :: [] ++ (u " X ", ex_frame 100) :: []))
                 no_fault false (ex_state (RegularFile ex_bytes) None)).1
              ex_bytes [] [] [] (u "X") (u " X ") (ex_frame 0) (ex_frame 100)
              eq_refl eq_refl)
    as (d' & Hd & _ & Hlk & _ & Hsz).
  - vm_compute. reflexivity.
  - reflexivity.
  - intros x Hx. by apply not_elem_of_nil in Hx.
  - exists d'. split; [exact Hd|]. split; [exact Hlk|]. apply Hsz. reflexivity.
Defined.

(** ** Witnesses for the further properties *)

Lemma table_name_no_whitespace_witness : table_name (u "Inventory") = u "Inventory".
Proof. apply table_name_no_whitespace. repeat constructor. Defined.

Lemma table_name_padding_witness :
  table_name ([160; 12288] ++ u "Sales Data" ++ [133; 32])%Z = u "Sales_Data".
Proof.
  etransitivity; [apply table_name_padding; repeat constructor|reflexivity].
Defined.

Lemma main_keeps_other_tables_witness :
  exists d',
    db_file (main ex_resolve
               (ex_read [(u "Sales Data", ex_frame 0); (u "Bad", ex_frame 50)])
               (fault_on (u "Bad") Dropped) false
               (ex_state (RegularFile ex_bytes) (Some {[ u "Votes" := ex_old_table ]}))).1
    = Some d' /\ d' !! u "Votes" = Some ex_old_table.
Proof.
  destruct (main_keeps_other_tables ex_resolve (fault_on (u "Bad") Dropped) false
              (ex_read [(u "Sales Data", ex_frame 0); (u "Bad", ex_frame 50)])
              (ex_state (RegularFile ex_bytes) (Some {[ u "Votes" := ex_old_table ]}))
              ex_bytes [(u "Sales Data", ex_frame 0); (u "Bad", ex_frame 50)] (u "Votes")
              eq_refl eq_refl) as [_ Hok].
  - intros x Hx. apply elem_of_cons in Hx as [->|Hx].
    + intros Heq. vm_compute in Heq. discriminate Heq.
    + apply list_elem_of_singleton in Hx. subst x.
      intros Heq. vm_compute in Heq. discriminate Heq.
  - destruct (Hok eq_refl) as (d' & Hd & Hlk).
    exists d'. split; [exact Hd|]. rewrite Hlk. reflexivity.
Defined.

Lemma main_after_parse_closed_witness :
  conn_open (main ex_resolve (ex_read [(u "Bad", ex_frame 50)])
               (fault_on (u "Bad") Untouched) false
               (ex_state (RegularFile ex_bytes) None)).1
  = false.
Proof.
  apply (main_after_parse_closed ex_resolve (fault_on (u "Bad") Untouched) false
           (ex_read [(u "Bad", ex_frame 50)]) (ex_state (RegularFile ex_bytes) None)
           ex_bytes [(u "Bad", ex_frame 50)]); reflexivity.
Defined.

Lemma connect_failure_no_effect_witness :
  main ex_resolve (ex_read ex_sales_wb) no_fault true
    (ex_state (RegularFile ex_bytes) None)
  = (ex_state (RegularFile ex_bytes) None, Some ConnectError).
Proof.
  apply (connect_failure_no_effect ex_resolve no_fault true (ex_read ex_sales_wb)
           (ex_state (RegularFile ex_bytes) None) ex_bytes ex_sales_wb);
    reflexivity.
Defined.

Lemma main_success_no_fault_witness :
  no_fault (table_name (u "Sales Data")) (frame_to_table (ex_frame 0) false) = None.
Proof.
  destruct (main_success_no_fault ex_resolve no_fault false (ex_read ex_sales_wb)
              (ex_state (RegularFile ex_bytes) None)
              (main ex_resolve (ex_read ex_sales_wb) no_fault false
                 (ex_state (RegularFile ex_bytes) None)).1
              ex_bytes ex_sales_wb eq_refl eq_refl) as [_ Hall].
  - vm_compute. reflexivity.
  - apply (Hall (u "Sales Data", ex_frame 0)). by apply elem_of_cons; left.
Defined.

Lemma main_runs_compose_witness :
  main ex_resolve (ex_read ex_sales_wb) no_fault false
    (ex_state (RegularFile ex_bytes) None)
  = (main ex_resolve (ex_read [(u "Inventory", ex_frame 100)]) no_fault false
       (main ex_resolve (ex_read [(u "Sales Data", ex_frame 0)]) no_fault false
          (ex_state (RegularFile ex_bytes) None)).1).
Proof.
  apply (main_runs_compose ex_resolve no_fault false
           (ex_read [(u "Sales Data", ex_frame 0)])
           (ex_read [(u "Inventory", ex_frame 100)])
           (ex_read ex_sales_wb) (ex_state (RegularFile ex_bytes) None)
           (main ex_resolve (ex_read [(u "Sales Data", ex_frame 0)]) no_fault false
              (ex_state (RegularFile ex_bytes) None)).1
           (main ex_resolve (ex_read [(u "Inventory", ex_frame 100)]) no_fault false
              (main ex_resolve (ex_read [(u "Sales Data", ex_frame 0)]) no_fault false
                 (ex_state (RegularFile ex_bytes) None)).1).1
           ex_bytes [(u "Sales Data", ex_frame 0)] [(u "Inventory", ex_frame 100)]);
    vm_compute; reflexivity.
Defined.

Lemma main_sheet_order_irrelevant_witness :
  main ex_resolve (ex_read [(u "Inventory", ex_frame 100); (u "Sales Data", ex_frame 0)])
    no_fault false (ex_state (RegularFile ex_bytes) None)
  = main ex_resolve (ex_read ex_sales_wb) no_fault false
      (ex_state (RegularFile ex_bytes) None).
Proof.
  apply (main_sheet_order_irrelevant ex_resolve no_fault false
           (ex_read ex_sales_wb)
           (ex_read [(u "Inventory", ex_frame 100); (u "Sales Data", ex_frame 0)])
           (ex_state (RegularFile ex_bytes) None)
           (main ex_resolve (ex_read ex_sales_wb) no_fault false
              (ex_state (RegularFile ex_bytes) None)).1
           ex_bytes ex_sales_wb
           [(u "Inventory", ex_frame 100); (u "Sales Data", ex_frame 0)]
           eq_refl eq_refl eq_refl).
  - constructor.
  - apply (bool_decide_unpack _). vm_compute. reflexivity.
  - vm_compute. reflexivity.
Defined.
